(** * CCCI member backend: the upstream forwarder

    A shallow embedding of the Express application (the seven routes, the
    404 handler and the string operations they rely on) together with the
    properties of its URL templating, validation and outcome mapping.

    The embedding follows the application with the payment routes, from
    its startup checks to the 404 handler.  The repository's [server.js],
    the earlier variant with the single route [GET /api/show/data], is
    embedded in [ServerJs] and compared with it. *)

From Stdlib Require Import String Ascii List ZArith Bool Lia.
Import ListNotations.
Local Open Scope string_scope.

(** ** JavaScript strings

    The handlers use [String.prototype.includes] and
    [String.prototype.replace] with a string pattern.  A JavaScript string
    is a sequence of code units; the operations below only compare and
    copy units, so they are modelled on [string]. *)

Module JsString.

Fixpoint take (n : nat) (s : string) : string :=
  match n, s with
  | S n', String c s' => String c (take n' s')
  | _, _ => EmptyString
  end.

Fixpoint drop (n : nat) (s : string) : string :=
  match n, s with
  | S n', String _ s' => drop n' s'
  | _, _ => s
  end.

(** [s.startsWith(pat)] *)
Fixpoint startsWith (s pat : string) {struct pat} : bool :=
  match pat with
  | EmptyString => true
  | String a pat' =>
      match s with
      | String b s' => Ascii.eqb a b && startsWith s' pat'
      | EmptyString => false
      end
  end.

(** [s.indexOf(pat)], with [None] for the result -1. *)
Fixpoint indexOf (s pat : string) : option nat :=
  if startsWith s pat then Some 0
  else match s with
       | EmptyString => None
       | String _ s' => option_map S (indexOf s' pat)
       end.

(** [s.includes(pat)] *)
Definition includes (s pat : string) : bool :=
  match indexOf s pat with Some _ => true | None => false end.

(** GetSubstitution of ECMAScript for a string pattern, that is with no
    capture groups: [$$] gives a dollar sign, [$&] the matched text,
    [$`] the text before the match, [$'] the text after it.  With no
    captures, [$1]..[$99] and [$<] stand for themselves, like a dollar
    sign followed by anything else. *)
Fixpoint getSubstitution (matched before after repl : string) : string :=
  match repl with
  | EmptyString => EmptyString
  | String c tl =>
      if Ascii.eqb c "$" then
        match tl with
        | EmptyString => "$"
        | String d rest =>
            if Ascii.eqb d "$" then
              String "$" (getSubstitution matched before after rest)
            else if Ascii.eqb d "&" then
              matched ++ getSubstitution matched before after rest
            else if Ascii.eqb d "`" then
              before ++ getSubstitution matched before after rest
            else if Ascii.eqb d "'" then
              after ++ getSubstitution matched before after rest
            else String "$" (getSubstitution matched before after tl)
        end
      else String c (getSubstitution matched before after tl)
  end.

(** [s.replace(pat, repl)] for strings [pat] and [repl]: only the first
    occurrence is replaced, and [repl] goes through GetSubstitution. *)
Definition replace (s pat repl : string) : string :=
  match indexOf s pat with
  | None => s
  | Some pos =>
      let before := take pos s in
      let after := drop (pos + String.length pat) s in
      before ++ getSubstitution pat before after repl ++ after
  end.

(** Whether the code unit [c] occurs in [s]. *)
Fixpoint mentions (c : ascii) (s : string) : bool :=
  match s with
  | EmptyString => false
  | String d s' => Ascii.eqb c d || mentions c s'
  end.

End JsString.

(** ** The replacement the specification describes

    "Literal substring replacement of the first occurrence of the
    placeholder token with the identifier": written directly, with no
    reference to [JsString.replace]. *)

Fixpoint substFirst (pat by_ t : string) : string :=
  if JsString.startsWith t pat then by_ ++ JsString.drop (String.length pat) t
  else match t with
       | EmptyString => EmptyString
       | String c t' => String c (substFirst pat by_ t')
       end.

(** ** URL templating of the handlers *)

(** [API_PAYMENT.replace('{id}', id)], in the GET, PUT and DELETE routes. *)
Definition paymentUrl (API_PAYMENT id : string) : string :=
  JsString.replace API_PAYMENT "{id}" id.

(** [API_PAYMENT.includes('{id}') ? API_PAYMENT.replace('/{id}', '') : API_PAYMENT],
    in the POST route. *)
Definition paymentEndpoint (API_PAYMENT : string) : string :=
  if JsString.includes API_PAYMENT "{id}"
  then JsString.replace API_PAYMENT "/{id}" ""
  else API_PAYMENT.

(** ** JavaScript values

    Request payloads, parsed upstream bodies and the objects given to
    [res.json].  An object keeps its properties in insertion order, hence
    the association list.  Numbers are restricted to the integers, which
    is all the handlers produce (status codes). *)

#[warnings="-register-all"]
Inductive JsValue : Type :=
| JUndefined
| JNull
| JBool (b : bool)
| JNum (n : Z)
| JStr (s : string)
| JArr (items : list JsValue)
| JObj (props : list (string * JsValue)).

(** ToBoolean: what [!v] tests. *)
Definition truthy (v : JsValue) : bool :=
  match v with
  | JUndefined | JNull => false
  | JBool b => b
  | JNum n => negb (Z.eqb n 0)
  | JStr s => negb (String.eqb s "")
  | JArr _ | JObj _ => true
  end.

Fixpoint assoc {A : Type} (k : string) (l : list (string * A)) : option A :=
  match l with
  | [] => None
  | (k', v) :: l' => if String.eqb k k' then Some v else assoc k l'
  end.

(** The property [k] of an object, [None] when it has none. *)
Definition prop (k : string) (v : JsValue) : option JsValue :=
  match v with
  | JObj props => assoc k props
  | _ => None
  end.

(** ** Promises, the upstream and the effect of a handler *)

(** What [await] finds: a value, or an error with its [message]. *)
Inductive Settled (A : Type) : Type :=
| Fulfilled (a : A)
| Rejected (message : string).
Arguments Fulfilled {A} a.
Arguments Rejected {A} message.

(** The arguments of one [fetch]. *)
Record OutboundCall : Type := {
  call_url : string;
  call_method : string;
  call_headers : list (string * string);
  call_body : option string
}.

(** The response [fetch] resolves to.  Its body is read afterwards, by
    [text()] or [json()], and reading can fail on its own. *)
Record UpstreamResponse : Type := {
  status : Z;
  statusText : string;
  body_text : Settled string
}.

(** [response.ok] of node-fetch. *)
Definition ok (r : UpstreamResponse) : bool :=
  (200 <=? status r)%Z && (status r <? 300)%Z.

(** Everything outside the process: how the upstream answers a call
    (rejection stands for a transport failure) and the time
    [new Date().toISOString()] reads. *)
Record World : Type := {
  upstream : OutboundCall -> Settled UpstreamResponse;
  clock : string
}.

(** An asynchronous computation: it reads the world, appends the calls it
    makes to the log, and settles. *)
Definition Async (A : Type) : Type :=
  World -> list OutboundCall -> Settled A * list OutboundCall.

Definition ret {A : Type} (a : A) : Async A :=
  fun _ log => (Fulfilled a, log).

Definition bind {A B : Type} (m : Async A) (k : A -> Async B) : Async B :=
  fun w log =>
    match m w log with
    | (Fulfilled a, log') => k a w log'
    | (Rejected e, log') => (Rejected e, log')
    end.

Notation "x <- m ;; k" := (bind m (fun x => k))
  (at level 61, m at next level, right associativity).

(** [await p] for a promise that makes no call. *)
Definition await {A : Type} (p : Settled A) : Async A :=
  fun _ log => (p, log).

(** [await fetch(url, init)] *)
Definition fetch (c : OutboundCall) : Async UpstreamResponse :=
  fun w log => (upstream w c, (log ++ [c])%list).

(** [new Date().toISOString()] *)
Definition toISOString_now : Async string :=
  fun w log => (Fulfilled (clock w), log).

(** [try { body } catch (error) { handler(error.message) }] *)
Definition try_catch {A : Type} (body : Async A) (handler : string -> Async A)
  : Async A :=
  fun w log =>
    match body w log with
    | (Rejected e, log') => handler e w log'
    | settled => settled
    end.

(** Running a handler from an empty log. *)
Definition run {A : Type} (m : Async A) (w : World)
  : Settled A * list OutboundCall :=
  m w [].

(** ** Requests and replies *)

Record Request : Type := {
  method : string;
  originalUrl : string;
  params : list (string * string);
  body : JsValue
}.

(** What the handler sends: [res.status(c).json(v)]. *)
Record Reply : Type := {
  statusCode : Z;
  content : JsValue
}.

Definition res_status_json (c : Z) (v : JsValue) : Reply :=
  {| statusCode := c; content := v |}.

(** [res.json(v)] with the status left at its default. *)
Definition res_json (v : JsValue) : Reply :=
  res_status_json 200 v.


(** [req.params.id] *)
Definition params_id (req : Request) : option string :=
  assoc "id" (params req).

(** [JSON.parse] inside [response.json()] and [JSON.stringify]: library
    functions, taken as given. *)
Record JsonCodec : Type := {
  JSON_parse : string -> Settled JsValue;
  JSON_stringify : JsValue -> string
}.

(** The three settings read at startup. *)
Record Config : Type := {
  API_URL : string;
  API_PAYMENT : string;
  API_TOKEN : string
}.

(** ** The route handlers *)

Section Handlers.

Variable cfg : Config.
Variable JSON : JsonCodec.

(** [response.text()] and [response.json()] *)
Definition response_text (r : UpstreamResponse) : Async string :=
  await (body_text r).

Definition response_json (r : UpstreamResponse) : Async JsValue :=
  await (match body_text r with
         | Fulfilled t => JSON_parse JSON t
         | Rejected e => Rejected e
         end).

Definition bearer : string * string :=
  ("Authorization", "Bearer " ++ API_TOKEN cfg).

Definition json_content_type : string * string :=
  ("Content-Type", "application/json").

(** The reply of every [catch] block of the data and payment routes. *)
Definition internal_error (message : string) : Reply :=
  res_status_json 500
    (JObj [("error", JStr "Internal server error");
           ("message", JStr message)]).

Definition set_or_missing (s : string) : JsValue :=
  JStr (if String.eqb s "" then "Missing" else "Set").

(** [app.get("/health", ...)] *)
Definition health (req : Request) : Async Reply :=
  timestamp <- toISOString_now ;;
  ret (res_json
         (JObj [("status", JStr "OK");
                ("timestamp", JStr timestamp);
                ("environment",
                 JObj [("API_URL", set_or_missing (API_URL cfg));
                       ("API_PAYMENT", set_or_missing (API_PAYMENT cfg));
                       ("API_TOKEN", set_or_missing (API_TOKEN cfg))])])).

(** [app.get("/api/show/data", ...)] *)
Definition getShowData (req : Request) : Async Reply :=
  try_catch
    (response <- fetch {| call_url := API_URL cfg;
                          call_method := "GET";
                          call_headers := [bearer; json_content_type];
                          call_body := None |} ;;
     if negb (ok response) then
       ret (res_status_json (status response)
              (JObj [("error", JStr "Failed to fetch external API");
                     ("status", JNum (status response));
                     ("statusText", JStr (statusText response))]))
     else
       data <- response_json response ;;
       ret (res_json data))
    (fun message => ret (internal_error message)).

(** [app.get("/api/show/data/payment/:id", ...)] *)
Definition getPaymentById (req : Request) : Async Reply :=
  try_catch
    (match params_id req with
     | None | Some EmptyString =>
         ret (res_status_json 400
                (JObj [("error", JStr "Payment ID is required")]))
     | Some id =>
         response <- fetch {| call_url := paymentUrl (API_PAYMENT cfg) id;
                              call_method := "GET";
                              call_headers := [bearer; json_content_type];
                              call_body := None |} ;;
         if negb (ok response) then
           ret (res_status_json (status response)
                  (JObj [("error", JStr "Failed to fetch payment data");
                         ("status", JNum (status response));
                         ("statusText", JStr (statusText response))]))
         else
           data <- response_json response ;;
           ret (res_json data)
     end)
    (fun message => ret (internal_error message)).

(** [app.post("/api/payment", ...)] *)
Definition createPayment (req : Request) : Async Reply :=
  try_catch
    (let paymentData := body req in
     if negb (truthy paymentData) then
       ret (res_status_json 400
              (JObj [("error", JStr "Payment data is required")]))
     else
       response <- fetch {| call_url := paymentEndpoint (API_PAYMENT cfg);
                            call_method := "POST";
                            call_headers := [bearer; json_content_type];
                            call_body :=
                              Some (JSON_stringify JSON paymentData) |} ;;
       if negb (ok response) then
         errorText <- response_text response ;;
         ret (res_status_json (status response)
                (JObj [("error", JStr "Failed to create payment");
                       ("status", JNum (status response));
                       ("statusText", JStr (statusText response));
                       ("details", JStr errorText)]))
       else
         data <- response_json response ;;
         ret (res_status_json 201 data))
    (fun message => ret (internal_error message)).

(** [app.put("/api/payment/:id", ...)] *)
Definition updatePayment (req : Request) : Async Reply :=
  try_catch
    (let paymentData := body req in
     match params_id req with
     | None | Some EmptyString =>
         ret (res_status_json 400
                (JObj [("error", JStr "Payment ID is required")]))
     | Some id =>
         if negb (truthy paymentData) then
           ret (res_status_json 400
                  (JObj [("error", JStr "Payment data is required")]))
         else
           response <- fetch {| call_url := paymentUrl (API_PAYMENT cfg) id;
                                call_method := "PUT";
                                call_headers := [bearer; json_content_type];
                                call_body :=
                                  Some (JSON_stringify JSON paymentData) |} ;;
           if negb (ok response) then
             errorText <- response_text response ;;
             ret (res_status_json (status response)
                    (JObj [("error", JStr "Failed to update payment");
                           ("status", JNum (status response));
                           ("statusText", JStr (statusText response));
                           ("details", JStr errorText)]))
           else
             data <- response_json response ;;
             ret (res_json data)
     end)
    (fun message => ret (internal_error message)).

(** [app.delete("/api/payment/:id", ...)] *)
Definition deletePayment (req : Request) : Async Reply :=
  try_catch
    (match params_id req with
     | None | Some EmptyString =>
         ret (res_status_json 400
                (JObj [("error", JStr "Payment ID is required")]))
     | Some id =>
         response <- fetch {| call_url := paymentUrl (API_PAYMENT cfg) id;
                              call_method := "DELETE";
                              call_headers := [bearer; json_content_type];
                              call_body := None |} ;;
         if negb (ok response) then
           errorText <- response_text response ;;
           ret (res_status_json (status response)
                  (JObj [("error", JStr "Failed to delete payment");
                         ("status", JNum (status response));
                         ("statusText", JStr (statusText response));
                         ("details", JStr errorText)]))
         else
           ret (res_json
                  (JObj [("message", JStr "Payment deleted successfully");
                         ("id", JStr id)]))
     end)
    (fun message => ret (internal_error message)).

(** [app.get("/api/test-connection", ...)] *)
Definition testConnection (req : Request) : Async Reply :=
  try_catch
    (response <- fetch {| call_url := API_URL cfg;
                          call_method := "GET";
                          call_headers := [bearer];
                          call_body := None |} ;;
     timestamp <- toISOString_now ;;
     ret (res_json
            (JObj [("success", JBool (ok response));
                   ("status", JNum (status response));
                   ("statusText", JStr (statusText response));
                   ("url", JStr (API_URL cfg));
                   ("timestamp", JStr timestamp)])))
    (fun message =>
       timestamp <- toISOString_now ;;
       ret (res_status_json 500
              (JObj [("success", JBool false);
                     ("error", JStr message);
                     ("url", JStr (API_URL cfg));
                     ("timestamp", JStr timestamp)]))).

(** The list the 404 handler sends. *)
Definition availableEndpoints : list string :=
  ["GET /health";
   "GET /api/show/data";
   "GET /api/payment/:id";
   "POST /api/payment";
   "PUT /api/payment/:id";
   "DELETE /api/payment/:id";
   "GET /api/test-connection"].

(** The final [app.use((req, res) => ...)]. *)
Definition notFound (req : Request) : Async Reply :=
  ret (res_status_json 404
         (JObj [("error", JStr "Route not found");
                ("path", JStr (originalUrl req));
                ("method", JStr (method req));
                ("availableEndpoints", JArr (map JStr availableEndpoints))])).

(** The routes in the order they are registered with [app.get],
    [app.post], [app.put] and [app.delete]. *)
Definition routes : list (string * string * (Request -> Async Reply)) :=
  [("GET", "/health", health);
   ("GET", "/api/show/data", getShowData);
   ("GET", "/api/show/data/payment/:id", getPaymentById);
   ("POST", "/api/payment", createPayment);
   ("PUT", "/api/payment/:id", updatePayment);
   ("DELETE", "/api/payment/:id", deletePayment);
   ("GET", "/api/test-connection", testConnection)].

End Handlers.

(** ** Dispatch

    Express tries the routes in order and falls through to the final
    [app.use].  Matching is modelled as far as these patterns need it,
    with Express's defaults: the query string is ignored, literal segments
    compare without regard to case, [:id] takes one non-empty segment, one
    trailing slash is allowed, and a HEAD request is served by a GET
    route.  The middleware in front of the routes (CORS, the body parser,
    the request log) is not part of the model: a [Request] is what
    reaches the router, with its body already parsed.  So the model does
    not cover an OPTIONS request, which [cors()] answers itself with 204,
    nor a body that is not JSON, which [express.json()] hands to the error
    middleware; and it binds [:id] to the segment as it is written, where
    Express decodes its percent escapes and fails on a malformed one. *)

Module Router.

Fixpoint pathname (url : string) : string :=
  match url with
  | EmptyString => EmptyString
  | String c url' =>
      if Ascii.eqb c "?" then EmptyString else String c (pathname url')
  end.

Fixpoint segments (path : string) : list string :=
  match path with
  | EmptyString => [EmptyString]
  | String c path' =>
      if Ascii.eqb c "/" then EmptyString :: segments path'
      else match segments path' with
           | seg :: segs => String c seg :: segs
           | [] => [String c EmptyString]
           end
  end.

Definition lower_unit (c : ascii) : ascii :=
  let n := nat_of_ascii c in
  if (65 <=? n)%nat && (n <=? 90)%nat then ascii_of_nat (n + 32) else c.

Fixpoint lower (s : string) : string :=
  match s with
  | EmptyString => EmptyString
  | String c s' => String (lower_unit c) (lower s')
  end.

(** One trailing slash leaves an empty last segment; it is dropped. *)
Fixpoint chomp (segs : list string) : list string :=
  match segs with
  | [] => []
  | [EmptyString] => []
  | seg :: segs' => seg :: chomp segs'
  end.

Fixpoint matchSegments (pattern segs : list string)
  : option (list (string * string)) :=
  match pattern, segs with
  | [], [] => Some []
  | String ":" name :: pattern', seg :: segs' =>
      if String.eqb seg "" then None
      else option_map (cons (name, seg)) (matchSegments pattern' segs')
  | lit :: pattern', seg :: segs' =>
      if String.eqb (lower lit) (lower seg)
      then matchSegments pattern' segs'
      else None
  | _, _ => None
  end.

Definition matchPath (pattern url : string)
  : option (list (string * string)) :=
  matchSegments (chomp (segments pattern)) (chomp (segments (pathname url))).

Definition matchMethod (verb m : string) : bool :=
  String.eqb verb m || (String.eqb verb "GET" && String.eqb m "HEAD").

(** The first route that takes the request, with the parameters bound. *)
Fixpoint lookup {H : Type} (table : list (string * string * H))
  (m url : string) : option (H * list (string * string)) :=
  match table with
  | [] => None
  | (verb, pattern, h) :: table' =>
      if matchMethod verb m then
        match matchPath pattern url with
        | Some ps => Some (h, ps)
        | None => lookup table' m url
        end
      else lookup table' m url
  end.

End Router.

(** The application: the matching route's handler, run with [req.params]
    bound, or else the 404 handler. *)
Definition app (cfg : Config) (JSON : JsonCodec) (req : Request) : Async Reply :=
  match Router.lookup (routes cfg JSON) (method req) (originalUrl req) with
  | Some (handler, ps) =>
      handler {| method := method req;
                 originalUrl := originalUrl req;
                 params := ps;
                 body := body req |}
  | None => notFound req
  end.

(** ** The operations of the specification *)

Inductive Operation : Type :=
| FetchCollection
| FetchById
| Create
| UpdateById
| DeleteById
| TestConnection.

(** The route that carries out each operation. *)
Definition handlerOf (cfg : Config) (JSON : JsonCodec) (op : Operation)
  : Request -> Async Reply :=
  match op with
  | FetchCollection => getShowData cfg JSON
  | FetchById => getPaymentById cfg JSON
  | Create => createPayment cfg JSON
  | UpdateById => updatePayment cfg JSON
  | DeleteById => deletePayment cfg
  | TestConnection => testConnection cfg
  end.

(** Which operations take an identifier, and which a payload. *)
Definition requiresId (op : Operation) : bool :=
  match op with
  | FetchById | UpdateById | DeleteById => true
  | _ => false
  end.

Definition requiresPayload (op : Operation) : bool :=
  match op with
  | Create | UpdateById => true
  | _ => false
  end.

(** The write operations, whose failure replies carry [details]. *)
Definition isWrite (op : Operation) : bool :=
  match op with
  | Create | UpdateById | DeleteById => true
  | _ => false
  end.

(** [!id] and [!paymentData] *)
Definition idMissing (req : Request) : bool :=
  match params_id req with
  | None | Some EmptyString => true
  | Some _ => false
  end.

Definition payloadMissing (req : Request) : bool :=
  negb (truthy (body req)).

(** The request carries what the operation requires. *)
Definition wellFormed (op : Operation) (req : Request) : bool :=
  negb (requiresId op && idMissing req)
  && negb (requiresPayload op && payloadMissing req).

(** A route as the startup banner and the 404 reply write it. *)
Definition showRoute {H : Type} (r : string * string * H) : string :=
  let '(verb, pattern, _) := r in verb ++ " " ++ pattern.

(** The value of a header of an outbound call. *)
Definition header (name : string) (c : OutboundCall) : option string :=
  assoc name (call_headers c).

(** ** Startup

    What the file does before it registers the routes: it reads the
    settings from [process.env], falls back to the misspelt
    [API_PAYMET], and leaves with [process.exit(1)] at the first setting
    that is missing.  The console messages are left out; [Exited] keeps
    the name of the variable the message reports. *)

(** [process.env]: the variables that are set, each with its string. *)
Definition ProcessEnv : Type := list (string * string).

(** [a || b] for values that are a string or undefined. *)
Definition or_else (a b : option string) : option string :=
  match a with
  | Some (String _ _) => a
  | _ => b
  end.

Inductive Startup : Type :=
| Exited (code : Z) (missing : string)
| Listening (cfg : Config) (PORT : JsValue).

Definition startup (env : ProcessEnv) : Startup :=
  let API_URL := assoc "API_URL" env in
  let API_PAYMENT :=
    or_else (assoc "API_PAYMENT" env) (assoc "API_PAYMET" env) in
  let API_TOKEN := assoc "API_TOKEN" env in
  match API_URL with
  | None | Some EmptyString => Exited 1 "API_URL"
  | Some url =>
      match API_PAYMENT with
      | None | Some EmptyString => Exited 1 "API_PAYMENT"
      | Some payment =>
          match API_TOKEN with
          | None | Some EmptyString => Exited 1 "API_TOKEN"
          | Some token =>
              Listening
                {| API_URL := url; API_PAYMENT := payment; API_TOKEN := token |}
                (match assoc "PORT" env with
                 | Some (String _ _ as port) => JStr port
                 | _ => JNum 5000
                 end)
          end
      end
  end.

(** Whether a variable is set to a non-empty string: the ones [!x] lets
    pass. *)
Definition isSet (x : option string) : bool :=
  match x with
  | Some (String _ _) => true
  | _ => false
  end.

(** ** The earlier server

    [server.js]: the one route [GET /api/show/data], with the
    authorization header only and shorter failure replies.  It reads the
    same two settings and does not check them; the model takes them as
    set. *)

Module ServerJs.

Definition getShowData (cfg : Config) (JSON : JsonCodec) (req : Request)
  : Async Reply :=
  try_catch
    (response <- fetch {| call_url := API_URL cfg;
                          call_method := "GET";
                          call_headers :=
                            [("Authorization", "Bearer " ++ API_TOKEN cfg)];
                          call_body := None |} ;;
     if negb (ok response) then
       ret (res_status_json (status response)
              (JObj [("error", JStr "Failed to fetch external API")]))
     else
       data <- response_json JSON response ;;
       ret (res_json data))
    (fun _ =>
       ret (res_status_json 500
              (JObj [("error", JStr "Internal server error")]))).

End ServerJs.

(** ** Further vocabulary for the properties *)

(** The operations that call [response.json()] on success. *)
Definition parsesBody (op : Operation) : bool :=
  match op with
  | FetchCollection | FetchById | Create | UpdateById => true
  | _ => false
  end.

(** Whether the handler of [op] reads the body of the response [r]: with
    [json()] on success, with [text()] on failure. *)
Definition readsBody (op : Operation) (r : UpstreamResponse) : bool :=
  if ok r then parsesBody op else isWrite op.

(** The URL and the method of the call of each operation. *)
Definition urlOf (cfg : Config) (op : Operation) (req : Request) : string :=
  match op with
  | FetchCollection | TestConnection => API_URL cfg
  | Create => paymentEndpoint (API_PAYMENT cfg)
  | FetchById | UpdateById | DeleteById =>
      match params_id req with
      | Some id => paymentUrl (API_PAYMENT cfg) id
      | None => API_PAYMENT cfg
      end
  end.

Definition methodOf (op : Operation) : string :=
  match op with
  | FetchCollection | FetchById | TestConnection => "GET"
  | Create => "POST"
  | UpdateById => "PUT"
  | DeleteById => "DELETE"
  end.

(** A path segment that stands for itself as [:id]: not empty, and
    without a slash, a question mark, a number sign, or a percent sign
    (Express decodes percent escapes, the model does not). *)
Definition plainSegment (id : string) : bool :=
  negb (String.eqb id "")
  && negb (JsString.mentions "/" id)
  && negb (JsString.mentions "?" id)
  && negb (JsString.mentions "#" id)
  && negb (JsString.mentions "%" id).

(** Every function the application answers a request with. *)
Definition handlers (cfg : Config) (JSON : JsonCodec)
  : list (Request -> Async Reply) :=
  (map snd (routes cfg JSON) ++ [notFound])%list.

(** A request as it arrives, before the router binds [req.params]. *)
Definition inbound (m url : string) (b : JsValue) : Request :=
  {| method := m; originalUrl := url; params := []; body := b |}.

(** The reply of the identifier check of the three routes with [:id]. *)
Definition idRequired : Reply :=
  res_status_json 400 (JObj [("error", JStr "Payment ID is required")]).

(** ** Sample data for the closed instances below *)

Definition sampleConfig : Config :=
  {| API_URL := "https://api.example.com/shows";
     API_PAYMENT := "https://api.example.com/payments/{id}";
     API_TOKEN := "secret" |}.

(** A codec that knows one document. *)
Definition sampleJSON : JsonCodec :=
  {| JSON_parse := fun t =>
       if String.eqb t "[10]" then Fulfilled (JArr [JNum 10])
       else Rejected "Unexpected token in JSON at position 0";
     JSON_stringify := fun v =>
       match v with
       | JArr [JNum 10] => "[10]"
       | _ => "{}"
       end |}.

Definition answering (r : UpstreamResponse) : World :=
  {| upstream := fun _ => Fulfilled r; clock := "2025-01-01T00:00:00.000Z" |}.

Definition failing (message : string) : World :=
  {| upstream := fun _ => Rejected message;
     clock := "2025-01-01T00:00:00.000Z" |}.

Definition sampleRequest (m url : string) (id : option string) (b : JsValue)
  : Request :=
  {| method := m;
     originalUrl := url;
     params := match id with Some i => [("id", i)] | None => [] end;
     body := b |}.

Definition postPayment : Request :=
  sampleRequest "POST" "/api/payment" None (JArr [JNum 10]).

Definition deletePayment42 : Request :=
  sampleRequest "DELETE" "/api/payment/42" (Some "42") JUndefined.

Definition getShows : Request :=
  sampleRequest "GET" "/api/show/data" None JUndefined.

Definition unprocessable : UpstreamResponse :=
  {| status := 422;
     statusText := "Unprocessable Entity";
     body_text := Fulfilled "amount too small" |}.

(** A success other than 200, with a JSON body. *)
Definition accepted : UpstreamResponse :=
  {| status := 202; statusText := "Accepted"; body_text := Fulfilled "[10]" |}.

(** A success whose body is not JSON. *)
Definition okHtml : UpstreamResponse :=
  {| status := 200; statusText := "OK"; body_text := Fulfilled "<html>" |}.

Definition sampleEnv : ProcessEnv :=
  [("API_URL", "https://api.example.com/shows");
   ("API_PAYMET", "https://api.example.com/payments/{id}");
   ("API_TOKEN", "secret")].



Definition unavailable : UpstreamResponse :=
  {| status := 503;
     statusText := "Service Unavailable";
     body_text := Rejected "Premature close" |}.

(** * Properties *)

(** ** Strings *)

Section StringFacts.

Import JsString.
Local Arguments Ascii.eqb : simpl never.

Lemma take_app (p s : string) : take (String.length p) (p ++ s) = p.
Proof. induction p as [|c p IH]; simpl; [now destruct s | now rewrite IH]. Qed.

Lemma drop_app (p s : string) (n : nat) :
  drop (String.length p + n) (p ++ s) = drop n s.
Proof. induction p as [|c p IH]; simpl; auto. Qed.

Lemma drop_all (p s : string) : drop (String.length p) (p ++ s) = s.
Proof.
  rewrite <- (Nat.add_0_r (String.length p)), drop_app. now destruct s.
Qed.

Lemma app_assoc (a b c : string) : (a ++ b) ++ c = a ++ b ++ c.
Proof. induction a as [|x a IH]; simpl; congruence. Qed.

Lemma startsWith_app (pat r : string) : startsWith (pat ++ r) pat = true.
Proof.
  induction pat as [|c pat IH]; simpl; auto.
  now rewrite Ascii.eqb_refl, IH.
Qed.

Lemma startsWith_split (s pat : string) :
  startsWith s pat = true -> s = pat ++ drop (String.length pat) s.
Proof.
  revert s; induction pat as [|c pat IH]; intros s H; simpl in *.
  - now destruct s.
  - destruct s as [|d s]; [discriminate|].
    apply andb_true_iff in H as [Hc Hs].
    apply Ascii.eqb_eq in Hc; subst d.
    now rewrite <- (IH s Hs).
Qed.

(** [indexOf] finds an occurrence... *)
Lemma indexOf_split (s pat : string) (n : nat) :
  indexOf s pat = Some n ->
  s = take n s ++ pat ++ drop (n + String.length pat) s
  /\ String.length (take n s) = n.
Proof.
  revert n; induction s as [|c s IH]; intros n H.
  - simpl in H. destruct (startsWith "" pat) eqn:E; [|discriminate].
    injection H as <-. split; [|reflexivity].
    simpl. now apply startsWith_split.
  - rewrite (ltac:(reflexivity) :
      indexOf (String c s) pat =
      if startsWith (String c s) pat then Some 0
      else option_map S (indexOf s pat)) in H.
    destruct (startsWith (String c s) pat) eqn:E.
    + injection H as <-. split; [|reflexivity].
      now apply startsWith_split.
    + destruct (indexOf s pat) as [m|]; [|discriminate].
      injection H as <-. destruct (IH m eq_refl) as [Hs Hl].
      simpl. split; [now rewrite <- Hs | now rewrite Hl].
Qed.

(** ...and it is the leftmost one. *)
Lemma indexOf_leftmost (s pat p r : string) :
  s = p ++ pat ++ r ->
  exists n, indexOf s pat = Some n /\ n <= String.length p.
Proof.
  revert s; induction p as [|c p IH]; intros s ->.
  - exists 0. split; [|simpl; lia].
    simpl. destruct (pat ++ r) eqn:E; simpl; rewrite <- E, startsWith_app;
      reflexivity.
  - rewrite (ltac:(reflexivity) :
      indexOf (String c p ++ pat ++ r) pat =
      if startsWith (String c p ++ pat ++ r) pat then Some 0
      else option_map S (indexOf (p ++ pat ++ r) pat)).
    destruct (startsWith _ pat).
    + exists 0. split; [reflexivity | simpl; lia].
    + destruct (IH _ eq_refl) as (n & -> & Hn).
      exists (S n). split; [reflexivity | simpl; lia].
Qed.

Lemma includes_app (p pat r : string) : includes (p ++ pat ++ r) pat = true.
Proof.
  unfold includes.
  now destruct (indexOf_leftmost _ pat p r eq_refl) as (n & -> & _).
Qed.

(** A replacement without a dollar sign is inserted as it is. *)
Lemma getSubstitution_plain (matched before after repl : string) :
  mentions "$" repl = false ->
  getSubstitution matched before after repl = repl.
Proof.
  induction repl as [|c repl IH]; simpl; auto.
  intros H. apply orb_false_iff in H as [Hc Hr].
  rewrite Ascii.eqb_sym, Hc. now rewrite IH.
Qed.

Lemma replace_found (s pat repl : string) (n : nat) :
  indexOf s pat = Some n ->
  replace s pat repl =
    take n s
    ++ getSubstitution pat (take n s) (drop (n + String.length pat) s) repl
    ++ drop (n + String.length pat) s.
Proof. unfold replace. now intros ->. Qed.

(** Without a dollar sign in the replacement, [replace] is the literal
    replacement of the first occurrence. *)
Lemma replace_plain (t pat repl : string) :
  mentions "$" repl = false ->
  replace t pat repl = substFirst pat repl t.
Proof.
  intros Hd. unfold replace.
  induction t as [|c t IH].
  - simpl. destruct (startsWith "" pat) eqn:E; [|reflexivity].
    simpl. now rewrite getSubstitution_plain.
  - rewrite (ltac:(reflexivity) :
      indexOf (String c t) pat =
      if startsWith (String c t) pat then Some 0
      else option_map S (indexOf t pat)).
    rewrite (ltac:(reflexivity) :
      substFirst pat repl (String c t) =
      if startsWith (String c t) pat
      then repl ++ drop (String.length pat) (String c t)
      else String c (substFirst pat repl t)).
    destruct (startsWith (String c t) pat).
    + simpl take. simpl plus. now rewrite getSubstitution_plain.
    + destruct (indexOf t pat) as [n|]; simpl.
    * rewrite getSubstitution_plain in * by assumption. now rewrite <- IH.
    * now rewrite <- IH.
Qed.

End StringFacts.

(** ** URL templating *)

(** For an identifier without a dollar sign, the URL of FetchById,
    UpdateById and DeleteById is the template with the first [{id}]
    replaced by the identifier as it is. *)
Lemma paymentUrl_plain (t id : string) :
  JsString.mentions "$" id = false ->
  paymentUrl t id = substFirst "{id}" id t.
Proof. apply replace_plain. Qed.

(** A template without [/{id}] is what Create calls. *)
Lemma paymentEndpoint_no_segment (t : string) :
  JsString.indexOf t "/{id}" = None -> paymentEndpoint t = t.
Proof.
  intros H. unfold paymentEndpoint, JsString.replace. rewrite H.
  now destruct (JsString.includes t "{id}").
Qed.

(** C1, as amended: a template without [{id}] is the URL of Create
    unchanged; a template that reads [p ++ "/{id}" ++ s], this being the
    first [/{id}] in it, resolves to [p ++ s], which is free of the
    placeholder when [p ++ s] is. *)
Theorem create_endpoint_resolution (t : string) :
  (JsString.includes t "{id}" = false -> paymentEndpoint t = t)
  /\ (forall p s : string,
        t = p ++ "/{id}" ++ s ->
        JsString.indexOf t "/{id}" = Some (String.length p) ->
        paymentEndpoint t = p ++ s
        /\ (JsString.includes (p ++ s) "{id}" = false ->
            JsString.includes (paymentEndpoint t) "{id}" = false)).
Proof.
  split.
  - intros H. unfold paymentEndpoint. now rewrite H.
  - intros p s Ht Hi.
    assert (E : paymentEndpoint t = p ++ s).
    { unfold paymentEndpoint.
      assert (Hin : JsString.includes t "{id}" = true).
      { rewrite Ht.
        change (p ++ "/{id}" ++ s) with (p ++ "/" ++ "{id}" ++ s).
        rewrite <- app_assoc. apply includes_app. }
      rewrite Hin, (replace_found _ _ _ _ Hi). subst t.
      now rewrite take_app, drop_app, drop_all. }
    split; [exact E | now rewrite E].
Qed.

(** The two cases at [/v1/payments] and [/v1/payments/{id}]. *)
Lemma create_endpoint_resolution_witness :
  paymentEndpoint "/v1/payments" = "/v1/payments"
  /\ paymentEndpoint "/v1/payments/{id}" = "/v1/payments"
  /\ JsString.includes (paymentEndpoint "/v1/payments/{id}") "{id}" = false.
Proof.
  split.
  - exact (proj1 (create_endpoint_resolution "/v1/payments") eq_refl).
  - destruct (proj2 (create_endpoint_resolution "/v1/payments/{id}")
                "/v1/payments" "" eq_refl eq_refl) as [E F].
    split; [exact E | exact (F eq_refl)].
Defined.

(** C1 as stated fails: with a second placeholder in the template, the
    URL of Create still contains [{id}]. *)
Lemma create_keeps_second_placeholder :
  JsString.includes "https://api.example.com/payments/{id}/refunds/{id}" "{id}"
    = true
  /\ paymentEndpoint "https://api.example.com/payments/{id}/refunds/{id}"
     = "https://api.example.com/payments/refunds/{id}"
  /\ JsString.includes
       (paymentEndpoint "https://api.example.com/payments/{id}/refunds/{id}")
       "{id}" = true.
Proof. repeat split; reflexivity. Qed.

(** C2: at the identifier [$$], the routes that take an identifier call
    a URL with a single dollar sign, where the literal replacement keeps
    both: [replace] reads [$$] in the identifier as an escape. *)
Theorem dollar_identifier_is_rewritten :
  paymentUrl (API_PAYMENT sampleConfig) "$$"
    = "https://api.example.com/payments/$"
  /\ substFirst "{id}" "$$" (API_PAYMENT sampleConfig)
     = "https://api.example.com/payments/$$"
  /\ map call_url
       (snd (run (app sampleConfig sampleJSON
                    (sampleRequest "GET" "/api/show/data/payment/$$" None
                       JUndefined))
               (failing "ECONNREFUSED")))
     = ["https://api.example.com/payments/$"]
  /\ paymentUrl (API_PAYMENT sampleConfig) "$&"
     = "https://api.example.com/payments/{id}".
Proof. repeat split; reflexivity. Qed.

(** ** The handlers *)

#[local] Arguments paymentUrl : simpl never.
#[local] Arguments paymentEndpoint : simpl never.
#[local] Arguments ok : simpl never.
#[local] Arguments params_id : simpl never.

Ltac unfold_handler :=
  unfold run, handlerOf, getShowData, getPaymentById, createPayment,
    updatePayment, deletePayment, testConnection, try_catch, bind, fetch,
    ret, await, response_json, response_text, toISOString_now.

(** Case analysis on everything the handler inspects. *)
Ltac cases :=
  repeat (simpl;
          match goal with
          | |- context [params_id ?r] => destruct (params_id r) as [[|? ?]|]
          | |- context [truthy ?b] => destruct (truthy b)
          | |- context [upstream ?w ?c] => destruct (upstream w c)
          | |- context [ok ?r] => destruct (ok r)
          | |- context [body_text ?r] => destruct (body_text r)
          | |- context [JSON_parse ?J ?t] => destruct (JSON_parse J t)
          end).

(** What a well-formed request provides. *)
Lemma wellFormed_id (op : Operation) (req : Request) :
  requiresId op = true -> wellFormed op req = true ->
  exists a s, params_id req = Some (String a s).
Proof.
  unfold wellFormed, idMissing. intros ->. simpl.
  destruct (params_id req) as [[|a s]|]; try discriminate. eauto.
Qed.

Lemma wellFormed_payload (op : Operation) (req : Request) :
  requiresPayload op = true -> wellFormed op req = true ->
  truthy (body req) = true.
Proof.
  unfold wellFormed, payloadMissing. intros ->. simpl.
  destruct (truthy (body req)); [reflexivity|].
  now rewrite andb_false_r.
Qed.

(** Rewrites a well-formed request's checks away. *)
Ltac provide :=
  match goal with
  | H : wellFormed ?op ?req = true |- _ =>
      try (let E := fresh "Eid" in
           destruct (wellFormed_id op req eq_refl H) as (? & ? & E);
           rewrite E);
      try rewrite (wellFormed_payload op req eq_refl H)
  end.

(** C3: a request that lacks the identifier or the payload its operation
    requires is answered 400 with the message of the missing value, and no
    outbound call is made; for Create that is
    [{error: "Payment data is required"}]. *)
Theorem missing_value_is_rejected
  (cfg : Config) (JSON : JsonCodec) (op : Operation) (req : Request)
  (w : World) :
  wellFormed op req = false ->
  run (handlerOf cfg JSON op req) w =
    (Fulfilled
       {| statusCode := 400;
          content :=
            JObj [("error",
                   JStr (if requiresId op && idMissing req
                         then "Payment ID is required"
                         else "Payment data is required"))] |},
     []).
Proof.
  unfold wellFormed, idMissing, payloadMissing.
  destruct op; simpl; try discriminate; unfold_handler;
    destruct (params_id req) as [[|a s]|]; simpl; try discriminate;
    try reflexivity;
    destruct (truthy (body req)); simpl; try discriminate; reflexivity.
Qed.

(** [POST /api/payment] with no body. *)
Lemma missing_value_is_rejected_witness :
  wellFormed Create (sampleRequest "POST" "/api/payment" None JUndefined)
    = false
  /\ run (createPayment sampleConfig sampleJSON
            (sampleRequest "POST" "/api/payment" None JUndefined))
       (failing "unreachable")
     = (Fulfilled
          {| statusCode := 400;
             content := JObj [("error", JStr "Payment data is required")] |},
        []).
Proof.
  split; [reflexivity|].
  exact (missing_value_is_rejected sampleConfig sampleJSON Create
           (sampleRequest "POST" "/api/payment" None JUndefined)
           (failing "unreachable") eq_refl).
Defined.




(** C5: when the upstream answers DeleteById with a status in 200..299,
    the reply is 200 with [{message: "Payment deleted successfully", id}],
    whatever the upstream body is. *)
Theorem delete_success_is_acknowledged
  (cfg : Config) (req : Request) (w : World) (r : UpstreamResponse)
  (id : string) :
  params_id req = Some id ->
  id <> "" ->
  (forall c, upstream w c = Fulfilled r) ->
  ok r = true ->
  fst (run (deletePayment cfg req) w) =
    Fulfilled
      {| statusCode := 200;
         content := JObj [("message", JStr "Payment deleted successfully");
                          ("id", JStr id)] |}.
Proof.
  intros Hid Hne Hup Hok. unfold_handler. rewrite Hid.
  destruct id as [|a s]; [congruence|]. simpl.
  now rewrite Hup, Hok.
Qed.


(** [DELETE /api/payment/42] answered 200 with a body that is not JSON. *)
Lemma delete_success_is_acknowledged_witness :
  params_id deletePayment42 = Some "42"
  /\ ok okHtml = true
  /\ fst (run (deletePayment sampleConfig deletePayment42) (answering okHtml))
     = Fulfilled
         {| statusCode := 200;
            content := JObj [("message", JStr "Payment deleted successfully");
                             ("id", JStr "42")] |}.
Proof.
  split; [reflexivity|]. split; [reflexivity|].
  exact (delete_success_is_acknowledged sampleConfig deletePayment42
           (answering okHtml) okHtml "42" eq_refl ltac:(discriminate)
           (fun _ => eq_refl) eq_refl).
Defined.

(** C6, as amended: when the outbound request fails in transport, the
    handler settles with a reply, so the error does not leave the route;
    the reply is 500, for a data or payment call with the body
    [{error: "Internal server error", message}], [message] being the
    message of the failure, and for TestConnection with the body
    [{success: false, error, url, timestamp}], the message under
    [error]. *)
Theorem transport_failure_is_reported
  (cfg : Config) (JSON : JsonCodec) (op : Operation) (req : Request)
  (w : World) (message : string) :
  wellFormed op req = true ->
  (forall c, upstream w c = Rejected message) ->
  fst (run (handlerOf cfg JSON op req) w) =
    Fulfilled
      {| statusCode := 500;
         content :=
           match op with
           | TestConnection =>
               JObj [("success", JBool false);
                     ("error", JStr message);
                     ("url", JStr (API_URL cfg));
                     ("timestamp", JStr (clock w))]
           | _ =>
               JObj [("error", JStr "Internal server error");
                     ("message", JStr message)]
           end |}.
Proof.
  intros Hwf Hup.
  destruct op; unfold_handler; provide; simpl; now rewrite Hup.
Qed.

(** DeleteById with the connection refused. *)
Lemma transport_failure_is_reported_witness :
  wellFormed DeleteById deletePayment42 = true
  /\ fst (run (handlerOf sampleConfig sampleJSON DeleteById deletePayment42)
            (failing "connect ECONNREFUSED 127.0.0.1:443"))
     = Fulfilled
         {| statusCode := 500;
            content :=
              JObj [("error", JStr "Internal server error");
                    ("message", JStr "connect ECONNREFUSED 127.0.0.1:443")] |}.
Proof.
  split; [reflexivity|].
  exact (transport_failure_is_reported sampleConfig sampleJSON DeleteById
           deletePayment42 (failing "connect ECONNREFUSED 127.0.0.1:443")
           "connect ECONNREFUSED 127.0.0.1:443" eq_refl (fun _ => eq_refl)).
Defined.

(** C6 as stated fails for TestConnection: on a transport failure its
    reply carries the message under [error] and has no [message]
    property. *)
Lemma test_connection_failure_has_no_message :
  fst (run (handlerOf sampleConfig sampleJSON TestConnection getShows)
         (failing "connect ECONNREFUSED 127.0.0.1:443"))
  = Fulfilled
      {| statusCode := 500;
         content :=
           JObj [("success", JBool false);
                 ("error", JStr "connect ECONNREFUSED 127.0.0.1:443");
                 ("url", JStr "https://api.example.com/shows");
                 ("timestamp", JStr "2025-01-01T00:00:00.000Z")] |}
  /\ prop "message"
       (JObj [("success", JBool false);
              ("error", JStr "connect ECONNREFUSED 127.0.0.1:443");
              ("url", JStr "https://api.example.com/shows");
              ("timestamp", JStr "2025-01-01T00:00:00.000Z")])
     = None.
Proof. split; reflexivity. Qed.




(** ** Dispatch and the 404 handler *)

(** A request that reaches the router (so not an OPTIONS request, which
    [cors()] answers) and that no route takes gets the 404 reply, with
    [error], [path], [method] and [availableEndpoints], and no call is
    made. *)
Lemma unmatched_is_404
  (cfg : Config) (JSON : JsonCodec) (req : Request) (w : World) :
  method req <> "OPTIONS" ->
  Router.lookup (routes cfg JSON) (method req) (originalUrl req) = None ->
  run (app cfg JSON req) w =
    (Fulfilled
       {| statusCode := 404;
          content :=
            JObj [("error", JStr "Route not found");
                  ("path", JStr (originalUrl req));
                  ("method", JStr (method req));
                  ("availableEndpoints",
                   JArr (map JStr availableEndpoints))] |},
     []).
Proof. intros _ H. unfold app. now rewrite H. Qed.

(** C8: [GET /api/payment/42] matches no route and gets the 404 reply,
    whose list names [GET /api/payment/:id], which is not among the
    registered routes, and leaves out the registered
    [GET /api/show/data/payment/:id]. *)
Theorem advertised_route_is_not_registered
  (cfg : Config) (JSON : JsonCodec) (w : World) :
  run (app cfg JSON (sampleRequest "GET" "/api/payment/42" None JUndefined)) w
  = (Fulfilled
       {| statusCode := 404;
          content :=
            JObj [("error", JStr "Route not found");
                  ("path", JStr "/api/payment/42");
                  ("method", JStr "GET");
                  ("availableEndpoints",
                   JArr (map JStr availableEndpoints))] |},
     [])
  /\ In "GET /api/payment/:id" availableEndpoints
  /\ ~ In "GET /api/payment/:id" (map showRoute (routes cfg JSON))
  /\ In "GET /api/show/data/payment/:id" (map showRoute (routes cfg JSON))
  /\ ~ In "GET /api/show/data/payment/:id" availableEndpoints.
Proof.
  split; [reflexivity|].
  split; [simpl; tauto|].
  split; [simpl; intuition discriminate|].
  split; [simpl; tauto|].
  simpl; intuition discriminate.
Qed.

(** ** Outbound calls *)

(** C9: every outbound call of every operation carries
    [Authorization: Bearer <API_TOKEN>]; the calls of Create and
    UpdateById also carry [Content-Type: application/json] and the payload
    serialized as their body, the calls of the other operations have no
    body.  A well-formed request leads to exactly one call. *)
Theorem outbound_calls_are_authorised
  (cfg : Config) (JSON : JsonCodec) (op : Operation) (req : Request)
  (w : World) :
  Forall
    (fun c =>
       header "Authorization" c = Some ("Bearer " ++ API_TOKEN cfg)
       /\ if requiresPayload op
          then header "Content-Type" c = Some "application/json"
               /\ call_body c = Some (JSON_stringify JSON (body req))
          else call_body c = None)
    (snd (run (handlerOf cfg JSON op req) w))
  /\ (wellFormed op req = true ->
      length (snd (run (handlerOf cfg JSON op req) w)) = 1%nat).
Proof.
  split.
  - destruct op; unfold_handler; cases; repeat constructor.
  - intros Hwf. destruct op; unfold_handler; provide; cases; reflexivity.
Qed.

(** The one call of Create. *)
Lemma outbound_calls_are_authorised_witness :
  wellFormed Create postPayment = true
  /\ snd (run (handlerOf sampleConfig sampleJSON Create postPayment)
            (answering unprocessable))
     = [{| call_url := "https://api.example.com/payments";
           call_method := "POST";
           call_headers := [("Authorization", "Bearer secret");
                            ("Content-Type", "application/json")];
           call_body := Some "[10]" |}]
  /\ length (snd (run (handlerOf sampleConfig sampleJSON Create postPayment)
                    (answering unprocessable))) = 1%nat.
Proof.
  split; [reflexivity|]. split; [reflexivity|].
  exact (proj2 (outbound_calls_are_authorised sampleConfig sampleJSON Create
                  postPayment (answering unprocessable)) eq_refl).
Defined.

(** ** Bodies that are not JSON *)

(** C10, as amended: when the upstream answers FetchCollection, FetchById,
    Create or UpdateById with a status in 200..299 and a body that does
    not parse as JSON, the reply is 500 with
    [{error: "Internal server error", message}], [message] being the
    message of the parse error; DeleteById and TestConnection do not read
    the body and reply 200. *)
Theorem unparsable_success_is_500
  (cfg : Config) (JSON : JsonCodec) (op : Operation) (req : Request)
  (w : World) (r : UpstreamResponse) (t message : string) :
  wellFormed op req = true ->
  (forall c, upstream w c = Fulfilled r) ->
  ok r = true ->
  body_text r = Fulfilled t ->
  JSON_parse JSON t = Rejected message ->
  exists reply : Reply,
    fst (run (handlerOf cfg JSON op req) w) = Fulfilled reply
    /\ match op with
       | DeleteById | TestConnection => statusCode reply = 200%Z
       | _ =>
           reply =
             {| statusCode := 500;
                content := JObj [("error", JStr "Internal server error");
                                 ("message", JStr message)] |}
       end.
Proof.
  intros Hwf Hup Hok Ht Hp.
  destruct op; unfold_handler; provide; simpl;
    rewrite Hup; try rewrite Hok; simpl; try rewrite Ht, Hp; simpl; eauto.
Qed.

(** Create answered 200 with a body that is not JSON. *)
Lemma unparsable_success_is_500_witness :
  wellFormed Create postPayment = true
  /\ ok okHtml = true
  /\ exists reply : Reply,
       fst (run (handlerOf sampleConfig sampleJSON Create postPayment)
              (answering okHtml)) = Fulfilled reply
       /\ reply =
            {| statusCode := 500;
               content :=
                 JObj [("error", JStr "Internal server error");
                       ("message",
                        JStr "Unexpected token in JSON at position 0")] |}.
Proof.
  split; [reflexivity|]. split; [reflexivity|].
  exact (unparsable_success_is_500 sampleConfig sampleJSON Create postPayment
           (answering okHtml) okHtml "<html>"
           "Unexpected token in JSON at position 0"
           eq_refl (fun _ => eq_refl) eq_refl eq_refl eq_refl).
Defined.

(** C10 as stated fails for DeleteById: the upstream answers 200 with a
    body that is not JSON and the reply is the 200 acknowledgement. *)
Lemma delete_ignores_unparsable_body :
  ok okHtml = true
  /\ JSON_parse sampleJSON "<html>"
     = Rejected "Unexpected token in JSON at position 0"
  /\ fst (run (handlerOf sampleConfig sampleJSON DeleteById deletePayment42)
            (answering okHtml))
     = Fulfilled
         {| statusCode := 200;
            content := JObj [("message", JStr "Payment deleted successfully");
                             ("id", JStr "42")] |}.
Proof. repeat split; reflexivity. Qed.

(** * Further properties *)

(** ** Startup *)

(** X1: The server starts exactly when [API_URL], [API_TOKEN] and the payment
    template, under [API_PAYMENT] or the misspelt [API_PAYMET], are set
    to non-empty strings. *)
Theorem startup_listens_iff (env : ProcessEnv) :
  (exists cfg port, startup env = Listening cfg port)
  <-> isSet (assoc "API_URL" env) = true
      /\ isSet (assoc "API_PAYMENT" env) || isSet (assoc "API_PAYMET" env)
         = true
      /\ isSet (assoc "API_TOKEN" env) = true.
Proof.
  unfold startup, or_else, isSet.
  destruct (assoc "API_URL" env) as [[|? ?]|];
    destruct (assoc "API_PAYMENT" env) as [[|? ?]|];
    destruct (assoc "API_PAYMET" env) as [[|? ?]|];
    destruct (assoc "API_TOKEN" env) as [[|? ?]|]; simpl;
    (split; [intros (cfg & port & H); try discriminate; auto
            | intros (H1 & H2 & H3); try discriminate; eauto]).
Qed.

(** The sample environment, which spells the template [API_PAYMET]. *)
Lemma startup_listens_iff_witness :
  exists cfg port, startup sampleEnv = Listening cfg port.
Proof.
  exact (proj2 (startup_listens_iff sampleEnv)
           (conj eq_refl (conj eq_refl eq_refl))).
Defined.

(** X2: When the server does not start, it leaves with code 1 and reports the
    first of [API_URL], [API_PAYMENT], [API_TOKEN] that is missing, the
    template counting as missing only when both spellings are. *)
Theorem startup_exit_reports_first_missing
  (env : ProcessEnv) (code : Z) (missing : string) :
  startup env = Exited code missing ->
  code = 1%Z
  /\ ((missing = "API_URL" /\ isSet (assoc "API_URL" env) = false)
      \/ (missing = "API_PAYMENT"
          /\ isSet (assoc "API_URL" env) = true
          /\ isSet (assoc "API_PAYMENT" env) = false
          /\ isSet (assoc "API_PAYMET" env) = false)
      \/ (missing = "API_TOKEN"
          /\ isSet (assoc "API_URL" env) = true
          /\ isSet (assoc "API_PAYMENT" env) || isSet (assoc "API_PAYMET" env)
             = true
          /\ isSet (assoc "API_TOKEN" env) = false)).
Proof.
  unfold startup, or_else, isSet.
  destruct (assoc "API_URL" env) as [[|? ?]|];
    destruct (assoc "API_PAYMENT" env) as [[|? ?]|];
    destruct (assoc "API_PAYMET" env) as [[|? ?]|];
    destruct (assoc "API_TOKEN" env) as [[|? ?]|]; simpl;
    intros H; inversion H; subst; split; auto 10.
Qed.

(** An environment with the URL only: the template is reported. *)
Lemma startup_exit_reports_first_missing_witness :
  startup [("API_URL", "https://api.example.com/shows")]
    = Exited 1 "API_PAYMENT"
  /\ isSet (assoc "API_URL" [("API_URL", "https://api.example.com/shows")])
     = true.
Proof.
  split; [reflexivity|].
  destruct (startup_exit_reports_first_missing
              [("API_URL", "https://api.example.com/shows")] 1
              "API_PAYMENT" eq_refl) as [_ [[H _] | [(_ & H & _) | (H & _)]]].
  - discriminate H.
  - exact H.
  - discriminate H.
Defined.

(** X3: The settings of a started server are the non-empty values of the
    environment; the template is [API_PAYMENT] when that is set, whatever
    [API_PAYMET] is, and [API_PAYMET] otherwise; the port is 5000 unless
    [PORT] is set. *)
Theorem startup_config_is_set
  (env : ProcessEnv) (cfg : Config) (port : JsValue) :
  startup env = Listening cfg port ->
  API_URL cfg <> "" /\ API_PAYMENT cfg <> "" /\ API_TOKEN cfg <> ""
  /\ assoc "API_URL" env = Some (API_URL cfg)
  /\ assoc "API_TOKEN" env = Some (API_TOKEN cfg)
  /\ (if isSet (assoc "API_PAYMENT" env)
      then assoc "API_PAYMENT" env = Some (API_PAYMENT cfg)
      else assoc "API_PAYMET" env = Some (API_PAYMENT cfg))
  /\ port = (if isSet (assoc "PORT" env)
             then match assoc "PORT" env with
                  | Some p => JStr p
                  | None => JUndefined
                  end
             else JNum 5000).
Proof.
  unfold startup, or_else, isSet.
  destruct (assoc "API_URL" env) as [[|? ?]|];
    destruct (assoc "API_PAYMENT" env) as [[|? ?]|];
    destruct (assoc "API_PAYMET" env) as [[|? ?]|];
    destruct (assoc "API_TOKEN" env) as [[|? ?]|];
    destruct (assoc "PORT" env) as [[|? ?]|]; simpl;
    intros H; inversion H; subst; simpl; repeat split; discriminate.
Qed.

Lemma startup_config_is_set_witness :
  API_PAYMENT sampleConfig <> ""
  /\ assoc "API_PAYMET" sampleEnv = Some (API_PAYMENT sampleConfig).
Proof.
  destruct (startup_config_is_set sampleEnv sampleConfig (JNum 5000) eq_refl)
    as (_ & H & _ & _ & _ & P & _).
  exact (conj H P).
Defined.

(** X4: After startup the health check cannot report a missing setting: it
    replies 200 with all three settings [Set], and calls nothing. *)
Theorem health_after_startup
  (env : ProcessEnv) (cfg : Config) (port : JsValue) (req : Request)
  (w : World) :
  startup env = Listening cfg port ->
  run (health cfg req) w =
    (Fulfilled
       {| statusCode := 200;
          content :=
            JObj [("status", JStr "OK");
                  ("timestamp", JStr (clock w));
                  ("environment",
                   JObj [("API_URL", JStr "Set");
                         ("API_PAYMENT", JStr "Set");
                         ("API_TOKEN", JStr "Set")])] |},
     []).
Proof.
  intros H. destruct (startup_config_is_set env cfg port H)
    as (Hu & Hp & Ht & _).
  unfold run, health, bind, toISOString_now, ret, res_json, res_status_json,
    set_or_missing.
  destruct (API_URL cfg); [congruence|].
  destruct (API_PAYMENT cfg); [congruence|].
  destruct (API_TOKEN cfg); [congruence|].
  reflexivity.
Qed.

Lemma health_after_startup_witness :
  run (health sampleConfig getShows) (failing "ECONNREFUSED") =
    (Fulfilled
       {| statusCode := 200;
          content :=
            JObj [("status", JStr "OK");
                  ("timestamp", JStr "2025-01-01T00:00:00.000Z");
                  ("environment",
                   JObj [("API_URL", JStr "Set");
                         ("API_PAYMENT", JStr "Set");
                         ("API_TOKEN", JStr "Set")])] |},
     []).
Proof.
  exact (health_after_startup sampleEnv sampleConfig (JNum 5000) getShows
           (failing "ECONNREFUSED") eq_refl).
Defined.

(** ** More on the URLs *)

Lemma length_app (a b : string) :
  String.length (a ++ b) = String.length a + String.length b.
Proof. induction a as [|c a IH]; simpl; congruence. Qed.

Lemma app_inv_head (p a b : string) : p ++ a = p ++ b -> a = b.
Proof. induction p as [|c p IH]; simpl; intros H; [auto | injection H; auto]. Qed.

Lemma app_inv_tail (a b r : string) : a ++ r = b ++ r -> a = b.
Proof.
  revert b; induction a as [|c a IH]; intros [|d b] H; simpl in H.
  - reflexivity.
  - apply (f_equal String.length) in H. simpl in H.
    rewrite length_app in H. lia.
  - apply (f_equal String.length) in H. simpl in H.
    rewrite length_app in H. lia.
  - injection H as -> H. f_equal. now apply IH.
Qed.

(** X5: With a template that holds the placeholder, two identifiers without a
    dollar sign that resolve to the same URL are the same identifier;
    with a template that does not hold it, every identifier resolves to
    the template itself. *)
Theorem payment_url_separates_identifiers (t : string) :
  (JsString.includes t "{id}" = true ->
   forall i j : string,
     JsString.mentions "$" i = false ->
     JsString.mentions "$" j = false ->
     paymentUrl t i = paymentUrl t j -> i = j)
  /\ (JsString.includes t "{id}" = false ->
      forall i : string, paymentUrl t i = t).
Proof.
  unfold paymentUrl, JsString.includes. split.
  - destruct (JsString.indexOf t "{id}") as [n|] eqn:E; [|discriminate].
    intros _ i j Hi Hj.
    rewrite !(replace_found _ _ _ _ E), !getSubstitution_plain by assumption.
    intros H. apply app_inv_head in H. now apply app_inv_tail in H.
  - unfold JsString.replace.
    destruct (JsString.indexOf t "{id}"); [discriminate | reflexivity].
Qed.

Lemma payment_url_separates_identifiers_witness :
  (paymentUrl "/payments/{id}" "41" = paymentUrl "/payments/{id}" "42" ->
   "41" = "42")
  /\ paymentUrl "/payments" "42" = "/payments".
Proof.
  split.
  - exact (proj1 (payment_url_separates_identifiers "/payments/{id}") eq_refl
             "41" "42" eq_refl eq_refl).
  - exact (proj2 (payment_url_separates_identifiers "/payments") eq_refl "42").
Defined.

(** X6: When [p ++ "{id}" ++ s] is the template and this is its first
    placeholder, the URL of FetchById, UpdateById and DeleteById for an
    identifier without a dollar sign is [p ++ id ++ s]. *)
Theorem payment_url_inserts_identifier (p s id : string) :
  JsString.mentions "$" id = false ->
  JsString.indexOf (p ++ "{id}" ++ s) "{id}" = Some (String.length p) ->
  paymentUrl (p ++ "{id}" ++ s) id = p ++ id ++ s.
Proof.
  intros Hd Hi. unfold paymentUrl.
  rewrite (replace_found _ _ _ _ Hi), getSubstitution_plain by assumption.
  now rewrite take_app, drop_app, drop_all.
Qed.

Lemma payment_url_inserts_identifier_witness :
  paymentUrl "/v1/payments/{id}/receipt" "42" = "/v1/payments/42/receipt".
Proof.
  exact (payment_url_inserts_identifier "/v1/payments/" "/receipt" "42"
           eq_refl eq_refl).
Defined.

Lemma app_nil_r (s : string) : s ++ "" = s.
Proof. induction s as [|c s IH]; simpl; congruence. Qed.

(** The URL of Create for a template that ends in its first [/{id}]. *)
Lemma paymentEndpoint_last_segment (p : string) :
  JsString.indexOf (p ++ "/{id}") "/{id}" = Some (String.length p) ->
  paymentEndpoint (p ++ "/{id}") = p.
Proof.
  intros Hs. unfold paymentEndpoint.
  assert (Hin : JsString.includes (p ++ "/{id}") "{id}" = true).
  { change (p ++ "/{id}") with (p ++ "/" ++ "{id}" ++ "").
    rewrite <- app_assoc. apply includes_app. }
  rewrite Hin, (replace_found _ _ _ _ Hs).
  change (p ++ "/{id}") with (p ++ "/{id}" ++ "").
  rewrite take_app, drop_app. simpl. apply app_nil_r.
Qed.

(** X7: When the template ends in [/{id}] and that is its first placeholder,
    the URL of a payment is the URL Create posts to, followed by a slash
    and the identifier (the identifier having no dollar sign). *)
Theorem payment_url_extends_create_endpoint (p id : string) :
  JsString.mentions "$" id = false ->
  JsString.indexOf (p ++ "/{id}") "/{id}" = Some (String.length p) ->
  JsString.indexOf (p ++ "/{id}") "{id}" = Some (S (String.length p)) ->
  paymentUrl (p ++ "/{id}") id = paymentEndpoint (p ++ "/{id}") ++ "/" ++ id.
Proof.
  intros Hd Hs Hi.
  rewrite (paymentEndpoint_last_segment p Hs).
  unfold paymentUrl. rewrite (replace_found _ _ _ _ Hi).
  rewrite getSubstitution_plain by assumption.
  replace (S (String.length p)) with (String.length (p ++ "/"))
    by (rewrite length_app; simpl; lia).
  change (p ++ "/{id}") with (p ++ "/" ++ "{id}" ++ "").
  rewrite <- (app_assoc p "/" ("{id}" ++ "")).
  rewrite take_app, drop_app. simpl.
  now rewrite app_nil_r, app_assoc.
Qed.

Lemma payment_url_extends_create_endpoint_witness :
  paymentUrl (API_PAYMENT sampleConfig) "42"
  = paymentEndpoint (API_PAYMENT sampleConfig) ++ "/" ++ "42".
Proof.
  exact (payment_url_extends_create_endpoint
           "https://api.example.com/payments" "42" eq_refl eq_refl eq_refl).
Defined.

(** ** More on the handlers *)

(** X8: TestConnection replies 200 whatever the upstream's status is, and
    reports that status in the body; it makes its one call and does not
    read the response body. *)
Theorem test_connection_reports_any_status
  (cfg : Config) (req : Request) (w : World) (r : UpstreamResponse) :
  (forall c, upstream w c = Fulfilled r) ->
  run (testConnection cfg req) w =
    (Fulfilled
       {| statusCode := 200;
          content := JObj [("success", JBool (ok r));
                           ("status", JNum (status r));
                           ("statusText", JStr (statusText r));
                           ("url", JStr (API_URL cfg));
                           ("timestamp", JStr (clock w))] |},
     [{| call_url := API_URL cfg;
         call_method := "GET";
         call_headers := [("Authorization", "Bearer " ++ API_TOKEN cfg)];
         call_body := None |}]).
Proof. intros Hup. unfold_handler. now rewrite Hup. Qed.

(** The upstream is down and its body cannot be read: still 200. *)
Lemma test_connection_reports_any_status_witness :
  fst (run (testConnection sampleConfig getShows) (answering unavailable)) =
    Fulfilled
      {| statusCode := 200;
         content := JObj [("success", JBool false);
                          ("status", JNum 503);
                          ("statusText", JStr "Service Unavailable");
                          ("url", JStr "https://api.example.com/shows");
                          ("timestamp", JStr "2025-01-01T00:00:00.000Z")] |}.
Proof.
  exact (f_equal fst
           (test_connection_reports_any_status sampleConfig getShows
              (answering unavailable) unavailable (fun _ => eq_refl))).
Defined.

(** X9: Create replies 201 with the parsed upstream body, whichever status
    in 200..299 the upstream sent. *)
Theorem create_success_is_201
  (cfg : Config) (JSON : JsonCodec) (req : Request) (w : World)
  (r : UpstreamResponse) (t : string) (data : JsValue) :
  truthy (body req) = true ->
  (forall c, upstream w c = Fulfilled r) ->
  ok r = true ->
  body_text r = Fulfilled t ->
  JSON_parse JSON t = Fulfilled data ->
  fst (run (createPayment cfg JSON req) w) =
    Fulfilled {| statusCode := 201; content := data |}.
Proof.
  intros Hb Hup Hok Ht Hp. unfold_handler. simpl.
  rewrite Hb. simpl. rewrite Hup, Hok. simpl. now rewrite Ht, Hp.
Qed.

Lemma create_success_is_201_witness :
  status accepted = 202%Z
  /\ fst (run (createPayment sampleConfig sampleJSON postPayment)
            (answering accepted))
     = Fulfilled {| statusCode := 201; content := JArr [JNum 10] |}.
Proof.
  split; [reflexivity|].
  exact (create_success_is_201 sampleConfig sampleJSON postPayment
           (answering accepted) accepted "[10]" (JArr [JNum 10])
           eq_refl (fun _ => eq_refl) eq_refl eq_refl eq_refl).
Defined.

(** X10: When the handler reads the upstream body (to parse it after a
    success, or as the details of a failed write) and reading fails, the
    reply is 500 with the message of that failure; the upstream's own
    status is not relayed then. *)
Theorem unreadable_body_is_500
  (cfg : Config) (JSON : JsonCodec) (op : Operation) (req : Request)
  (w : World) (r : UpstreamResponse) (message : string) :
  wellFormed op req = true ->
  (forall c, upstream w c = Fulfilled r) ->
  readsBody op r = true ->
  body_text r = Rejected message ->
  fst (run (handlerOf cfg JSON op req) w) =
    Fulfilled
      {| statusCode := 500;
         content := JObj [("error", JStr "Internal server error");
                          ("message", JStr message)] |}.
Proof.
  unfold readsBody. intros Hwf Hup Hr Hb.
  destruct op; unfold_handler; provide; simpl; rewrite Hup;
    destruct (ok r); simpl in *; try discriminate; now rewrite Hb.
Qed.

(** DeleteById answered 503 with a body that breaks off. *)
Lemma unreadable_body_is_500_witness :
  readsBody DeleteById unavailable = true
  /\ fst (run (handlerOf sampleConfig sampleJSON DeleteById deletePayment42)
            (answering unavailable))
     = Fulfilled
         {| statusCode := 500;
            content := JObj [("error", JStr "Internal server error");
                             ("message", JStr "Premature close")] |}.
Proof.
  split; [reflexivity|].
  exact (unreadable_body_is_500 sampleConfig sampleJSON DeleteById
           deletePayment42 (answering unavailable) unavailable
           "Premature close" eq_refl (fun _ => eq_refl) eq_refl eq_refl).
Defined.

(** X11: When the handler does not read the upstream body (a failed read, a
    successful DeleteById, TestConnection), the reply depends on the
    status and the status text of the response only. *)
Theorem unread_body_does_not_matter
  (cfg : Config) (JSON : JsonCodec) (op : Operation) (req : Request)
  (w w' : World) (r r' : UpstreamResponse) :
  (forall c, upstream w c = Fulfilled r) ->
  (forall c, upstream w' c = Fulfilled r') ->
  clock w = clock w' ->
  status r = status r' ->
  statusText r = statusText r' ->
  readsBody op r = false ->
  run (handlerOf cfg JSON op req) w = run (handlerOf cfg JSON op req) w'.
Proof.
  unfold readsBody. intros Hup Hup' Hc Hs Ht Hr.
  assert (Hok : ok r' = ok r) by (unfold ok; now rewrite Hs).
  destruct op; unfold_handler;
    destruct (params_id req) as [[|? ?]|]; simpl;
    try destruct (truthy (body req)); simpl;
    rewrite ?Hup, ?Hup'; simpl; rewrite ?Hok;
    destruct (ok r); simpl in *; try discriminate;
    now rewrite ?Hs, ?Ht, ?Hc.
Qed.

Lemma unread_body_does_not_matter_witness :
  readsBody DeleteById okHtml = false
  /\ run (handlerOf sampleConfig sampleJSON DeleteById deletePayment42)
       (answering okHtml)
     = run (handlerOf sampleConfig sampleJSON DeleteById deletePayment42)
         (answering {| status := 200;
                       statusText := "OK";
                       body_text := Rejected "Premature close" |}).
Proof.
  split; [reflexivity|].
  exact (unread_body_does_not_matter sampleConfig sampleJSON DeleteById
           deletePayment42 (answering okHtml)
           (answering {| status := 200;
                         statusText := "OK";
                         body_text := Rejected "Premature close" |})
           okHtml
           {| status := 200;
              statusText := "OK";
              body_text := Rejected "Premature close" |}
           (fun _ => eq_refl) (fun _ => eq_refl) eq_refl eq_refl eq_refl
           eq_refl).
Defined.

(** X12: The payload check is a presence check: an object or an array, empty
    ones included, is forwarded by Create and UpdateById as the body of
    one call. *)
Theorem object_payload_is_forwarded
  (cfg : Config) (JSON : JsonCodec) (op : Operation) (req : Request)
  (w : World) :
  requiresPayload op = true ->
  idMissing req = false \/ op = Create ->
  (exists props, body req = JObj props)
  \/ (exists items, body req = JArr items) ->
  map call_body (snd (run (handlerOf cfg JSON op req) w))
  = [Some (JSON_stringify JSON (body req))].
Proof.
  unfold idMissing. intros Hop Hid Hb.
  assert (Ht : truthy (body req) = true)
    by (destruct Hb as [[? ->] | [? ->]]; reflexivity).
  destruct op; try discriminate; unfold_handler; rewrite Ht;
    destruct (params_id req) as [[|? ?]|];
    try (destruct Hid; discriminate); cases; reflexivity.
Qed.

(** Create with the empty object. *)
Lemma object_payload_is_forwarded_witness :
  map call_body
    (snd (run (handlerOf sampleConfig sampleJSON Create
                 (sampleRequest "POST" "/api/payment" None (JObj [])))
            (answering accepted)))
  = [Some "{}"].
Proof.
  exact (object_payload_is_forwarded sampleConfig sampleJSON Create
           (sampleRequest "POST" "/api/payment" None (JObj []))
           (answering accepted) eq_refl (or_intror eq_refl)
           (or_introl (ex_intro _ [] eq_refl))).
Defined.

(** X13: The call of a well-formed request goes to the URL and with the method
    of its operation: the primary endpoint for FetchCollection and
    TestConnection, the resolved template for the payment operations. *)
Theorem call_target_of_operation
  (cfg : Config) (JSON : JsonCodec) (op : Operation) (req : Request)
  (w : World) :
  wellFormed op req = true ->
  map (fun c => (call_method c, call_url c))
    (snd (run (handlerOf cfg JSON op req) w))
  = [(methodOf op, urlOf cfg op req)].
Proof.
  intros Hwf. unfold urlOf.
  destruct op; unfold_handler; provide; cases; reflexivity.
Qed.

Lemma call_target_of_operation_witness :
  map (fun c => (call_method c, call_url c))
    (snd (run (handlerOf sampleConfig sampleJSON DeleteById deletePayment42)
            (failing "ECONNREFUSED")))
  = [("DELETE", "https://api.example.com/payments/42")].
Proof.
  exact (call_target_of_operation sampleConfig sampleJSON DeleteById
           deletePayment42 (failing "ECONNREFUSED") eq_refl).
Defined.

(** ** The application as a whole *)

(** The router hands a request to a handler of its table only. *)
Lemma lookup_In {H : Type} (table : list (string * string * H))
  (m url : string) (h : H) (ps : list (string * string)) :
  Router.lookup table m url = Some (h, ps) ->
  exists verb pattern,
    In (verb, pattern, h) table
    /\ Router.matchPath pattern url = Some ps.
Proof.
  induction table as [|[[verb pattern] h'] table IH]; simpl; [discriminate|].
  destruct (Router.matchMethod verb m).
  - destruct (Router.matchPath pattern url) as [ps'|] eqn:E.
    + intros H0. injection H0 as -> ->. eauto.
    + intros H0. destruct (IH H0) as (v & p & Hin & Hm). eauto.
  - intros H0. destruct (IH H0) as (v & p & Hin & Hm). eauto.
Qed.

Ltac unfold_route :=
  unfold run, health, notFound, getShowData, getPaymentById, createPayment,
    updatePayment, deletePayment, testConnection, try_catch, bind, fetch,
    ret, await, response_json, response_text, toISOString_now.

(** Splits a statement about a handler of [handlers] into one per
    handler. *)
Ltac by_handler H :=
  unfold handlers in H; simpl in H;
  repeat (destruct H as [H | H]; [subst | ]);
  [ .. | contradiction ].

(** X14: No request makes a handler throw: each of them settles with a reply,
    whatever the request holds and whatever the upstream does, so nothing
    they do reaches the error middleware. *)
Theorem handlers_always_reply
  (cfg : Config) (JSON : JsonCodec) (h : Request -> Async Reply)
  (req : Request) (w : World) :
  In h (handlers cfg JSON) ->
  exists reply : Reply, fst (run (h req) w) = Fulfilled reply.
Proof.
  intros H. by_handler H; unfold_route; cases; simpl; eauto.
Qed.

(** PUT answered with a body that breaks off. *)
Lemma handlers_always_reply_witness :
  exists reply : Reply,
    fst (run (updatePayment sampleConfig sampleJSON
                (sampleRequest "PUT" "/api/payment/42" (Some "42")
                   (JArr [JNum 10])))
           (answering unavailable))
    = Fulfilled reply.
Proof.
  apply (handlers_always_reply sampleConfig sampleJSON).
  unfold handlers. simpl. tauto.
Defined.

(** X15: No retries: a handler makes at most one outbound call. *)
Theorem handlers_call_at_most_once
  (cfg : Config) (JSON : JsonCodec) (h : Request -> Async Reply)
  (req : Request) (w : World) :
  In h (handlers cfg JSON) ->
  length (snd (run (h req) w)) <= 1.
Proof.
  intros H. by_handler H; unfold_route; cases; simpl; auto.
Qed.

Lemma handlers_call_at_most_once_witness :
  length (snd (run (getShowData sampleConfig sampleJSON getShows)
                 (failing "ECONNREFUSED"))) <= 1.
Proof.
  apply (handlers_call_at_most_once sampleConfig sampleJSON).
  unfold handlers. simpl. tauto.
Defined.

(** Like [cases], keeping what the upstream answered. *)
Ltac cases_eq :=
  repeat (simpl;
          match goal with
          | |- context [params_id ?r] => destruct (params_id r) as [[|? ?]|]
          | |- context [truthy ?b] => destruct (truthy b)
          | |- context [upstream ?w ?c] => destruct (upstream w c) eqn:?
          | |- context [ok ?r] => destruct (ok r) eqn:?
          | |- context [body_text ?r] => destruct (body_text r)
          | |- context [JSON_parse ?J ?t] => destruct (JSON_parse J t)
          end).

(** X16: The status of a reply is 200, 201, 400, 404 or 500, or else the
    status of an upstream response that was not a success: no other
    status of the upstream is passed on. *)
Theorem reply_status_is_fixed_or_relayed
  (cfg : Config) (JSON : JsonCodec) (h : Request -> Async Reply)
  (req : Request) (w : World) (reply : Reply) :
  In h (handlers cfg JSON) ->
  fst (run (h req) w) = Fulfilled reply ->
  In (statusCode reply) [200; 201; 400; 404; 500]%Z
  \/ exists c r,
       upstream w c = Fulfilled r /\ ok r = false
       /\ statusCode reply = status r.
Proof.
  intros H. by_handler H; unfold_route; cases_eq; simpl;
    intros H0; inversion H0; subst; simpl;
    first [ left; tauto | right; eauto ].
Qed.

Lemma reply_status_is_fixed_or_relayed_witness :
  In 200%Z [200; 201; 400; 404; 500]%Z
  \/ exists c r,
       upstream (answering accepted) c = Fulfilled r /\ ok r = false
       /\ 200%Z = status r.
Proof.
  apply (reply_status_is_fixed_or_relayed sampleConfig sampleJSON
           (getShowData sampleConfig sampleJSON) getShows (answering accepted)
           {| statusCode := 200; content := JArr [JNum 10] |}).
  - unfold handlers. simpl. tauto.
  - reflexivity.
Defined.

(** ** Dispatch of the routes with an identifier *)

Section RouterFacts.

Import Router.
Local Arguments Ascii.eqb : simpl never.
Local Arguments String.eqb : simpl never.

Lemma pathname_plain (s : string) :
  JsString.mentions "?" s = false -> pathname s = s.
Proof.
  induction s as [|c s IH]; simpl; auto.
  intros H. apply orb_false_iff in H as [Hc Hs].
  rewrite Ascii.eqb_sym, Hc. now rewrite IH.
Qed.

Lemma pathname_app_plain (p s : string) :
  JsString.mentions "?" p = false ->
  JsString.mentions "?" s = false ->
  pathname (p ++ s) = p ++ s.
Proof.
  intros Hp Hs. apply pathname_plain.
  induction p as [|c p IH]; simpl in *; auto.
  apply orb_false_iff in Hp as [Hc Hp]. now rewrite Hc, IH.
Qed.

Lemma segments_plain (s : string) :
  JsString.mentions "/" s = false -> segments s = [s].
Proof.
  induction s as [|c s IH]; simpl; auto.
  intros H. apply orb_false_iff in H as [Hc Hs].
  rewrite Ascii.eqb_sym, Hc. now rewrite IH.
Qed.

Lemma segments_not_nil (s : string) : segments s <> [].
Proof.
  destruct s as [|c s]; simpl; [discriminate|].
  destruct (Ascii.eqb c "/"); [discriminate|].
  destruct (segments s); discriminate.
Qed.

Lemma segments_app_slash (p s : string) :
  segments (p ++ "/" ++ s) = (segments p ++ segments s)%list.
Proof.
  induction p as [|c p IH]; [reflexivity|].
  change (segments (String c p ++ "/" ++ s))
    with (if Ascii.eqb c "/" then EmptyString :: segments (p ++ "/" ++ s)
          else match segments (p ++ "/" ++ s) with
               | seg :: segs => String c seg :: segs
               | [] => [String c EmptyString]
               end).
  change (segments (String c p))
    with (if Ascii.eqb c "/" then EmptyString :: segments p
          else match segments p with
               | seg :: segs => String c seg :: segs
               | [] => [String c EmptyString]
               end).
  rewrite IH. destruct (Ascii.eqb c "/"); [reflexivity|].
  destruct (segments p) eqn:E; [now apply segments_not_nil in E | reflexivity].
Qed.

(** The path of a URL that ends in a plain segment. *)
Lemma matchPath_under (pattern p id : string) :
  JsString.mentions "?" p = false ->
  JsString.mentions "?" id = false ->
  JsString.mentions "/" id = false ->
  matchPath pattern (p ++ "/" ++ id)
  = matchSegments (chomp (segments pattern)) (chomp (segments p ++ [id])).
Proof.
  intros Hp Hq Hs. unfold matchPath.
  rewrite pathname_app_plain, segments_app_slash, (segments_plain id);
    [reflexivity | exact Hs | exact Hp | exact Hq].
Qed.

Lemma lookup_cons {H : Type} (verb pattern : string) (h : H)
  (table : list (string * string * H)) (m url : string) :
  lookup ((verb, pattern, h) :: table) m url
  = if matchMethod verb m then
      match matchPath pattern url with
      | Some ps => Some (h, ps)
      | None => lookup table m url
      end
    else lookup table m url.
Proof. reflexivity. Qed.

(** What the two patterns with [:id] bind is not empty. *)
Lemma bound_identifier_is_present (pattern url : string)
  (ps : list (string * string)) :
  In pattern ["/api/show/data/payment/:id"; "/api/payment/:id"] ->
  matchPath pattern url = Some ps ->
  exists a s, assoc "id" ps = Some (String a s).
Proof.
  unfold matchPath. generalize (chomp (segments (pathname url))) as segs.
  intros segs [<- | [<- | []]].
  - change (chomp (segments "/api/show/data/payment/:id"))
      with [""; "api"; "show"; "data"; "payment"; ":id"].
    destruct segs as [|s0 [|s1 [|s2 [|s3 [|s4 [|s5 [|s6 segs]]]]]]]; simpl;
      repeat match goal with
             | |- context [if ?b then _ else _] => destruct b eqn:?
             end; try discriminate.
    intros H; injection H as <-. destruct s5 as [|a s]; [discriminate|].
    simpl. eauto.
  - change (chomp (segments "/api/payment/:id"))
      with [""; "api"; "payment"; ":id"].
    destruct segs as [|s0 [|s1 [|s2 [|s3 [|s4 segs]]]]]; simpl;
      repeat match goal with
             | |- context [if ?b then _ else _] => destruct b eqn:?
             end; try discriminate.
    intros H; injection H as <-. destruct s3 as [|a s]; [discriminate|].
    simpl. eauto.
Qed.

End RouterFacts.

(** X17: The three routes with [:id] hand the last segment of the path to
    their handler as [req.params.id], for a segment that stands for
    itself. *)
Theorem identifier_routes_bind_segment
  (cfg : Config) (JSON : JsonCodec) (id : string) (b : JsValue) :
  plainSegment id = true ->
  app cfg JSON (inbound "GET" ("/api/show/data/payment/" ++ id) b)
  = getPaymentById cfg JSON
      {| method := "GET";
         originalUrl := "/api/show/data/payment/" ++ id;
         params := [("id", id)];
         body := b |}
  /\ app cfg JSON (inbound "PUT" ("/api/payment/" ++ id) b)
     = updatePayment cfg JSON
         {| method := "PUT";
            originalUrl := "/api/payment/" ++ id;
            params := [("id", id)];
            body := b |}
  /\ app cfg JSON (inbound "DELETE" ("/api/payment/" ++ id) b)
     = deletePayment cfg
         {| method := "DELETE";
            originalUrl := "/api/payment/" ++ id;
            params := [("id", id)];
            body := b |}.
Proof.
  unfold plainSegment. intros H.
  repeat (apply andb_true_iff in H as [H ?]).
  repeat match goal with
         | H : negb _ = true |- _ => apply negb_true_iff in H
         end.
  destruct id as [|a s]; [discriminate|].
  unfold app, inbound, routes; cbn [method originalUrl body].
  change ("/api/show/data/payment/" ++ String a s)
    with ("/api/show/data/payment" ++ "/" ++ String a s).
  change ("/api/payment/" ++ String a s)
    with ("/api/payment" ++ "/" ++ String a s).
  rewrite !lookup_cons, !matchPath_under by (assumption || reflexivity).
  repeat split.
Qed.

Lemma identifier_routes_bind_segment_witness :
  app sampleConfig sampleJSON (inbound "DELETE" "/api/payment/42" JUndefined)
  = deletePayment sampleConfig
      {| method := "DELETE";
         originalUrl := "/api/payment/42";
         params := [("id", "42")];
         body := JUndefined |}.
Proof.
  exact (proj2 (proj2 (identifier_routes_bind_segment sampleConfig sampleJSON
                         "42" JUndefined eq_refl))).
Defined.

(** X18: The identifier check of the handlers cannot fail for a request that
    comes through the router, since [:id] takes a non-empty segment: no
    request is answered 400 [Payment ID is required]. *)
Theorem routed_request_has_identifier
  (cfg : Config) (JSON : JsonCodec) (req : Request) (w : World) :
  fst (run (app cfg JSON req) w) <> Fulfilled idRequired.
Proof.
  unfold app, idRequired.
  destruct (Router.lookup (routes cfg JSON) (method req) (originalUrl req))
    as [[h ps]|] eqn:E.
  - apply lookup_In in E. destruct E as (verb & pattern & Hin & Hm).
    simpl in Hin.
    repeat (destruct Hin as [Hin | Hin];
            [injection Hin as <- <- <- | ]); try contradiction;
      try (match type of Hm with
           | Router.matchPath ?pat ?url = Some ?ps =>
               destruct (bound_identifier_is_present pat url ps
                           ltac:(simpl; tauto) Hm) as (a & s & Hid)
           end);
      unfold_route; unfold params_id; cbn [params body];
      try rewrite Hid; cases; simpl; intros H; inversion H.
  - unfold_route. simpl. intros H; inversion H.
Qed.

(** ** The earlier server *)

(** X19: For the same answer of the upstream, [server.js] and the current
    [GET /api/show/data] reply with the same status; on a success they
    send the same body, and otherwise the earlier server sends the
    [error] text of the current reply and nothing else, so neither the
    upstream's status text nor the message of an exception.  The earlier
    call differs in having no [Content-Type]. *)
Theorem earlier_server_agrees_on_status
  (cfg : Config) (JSON : JsonCodec) (req : Request) (w : World)
  (answer : Settled UpstreamResponse) :
  (forall c, upstream w c = answer) ->
  exists old new : Reply,
    fst (run (ServerJs.getShowData cfg JSON req) w) = Fulfilled old
    /\ fst (run (getShowData cfg JSON req) w) = Fulfilled new
    /\ statusCode old = statusCode new
    /\ (statusCode old = 200%Z -> content old = content new)
    /\ (statusCode old <> 200%Z ->
        exists e, content old = JObj [("error", JStr e)]
                  /\ prop "error" (content new) = Some (JStr e))
    /\ map (fun c => (call_url c, call_method c, call_body c,
                      header "Authorization" c, header "Content-Type" c))
         (snd (run (ServerJs.getShowData cfg JSON req) w))
       = [(API_URL cfg, "GET", None,
           Some ("Bearer " ++ API_TOKEN cfg), None)].
Proof.
  intros Hup. unfold ServerJs.getShowData. unfold_route. rewrite !Hup.
  destruct answer as [r|e]; simpl.
  - destruct (ok r) eqn:Hok; simpl.
    + destruct (body_text r) as [t|e]; simpl.
      * destruct (JSON_parse JSON t) as [data|e]; simpl;
          do 2 eexists; repeat split; simpl; intros; eauto; try congruence;
          try discriminate.
      * do 2 eexists; repeat split; simpl; intros; eauto; discriminate.
    + do 2 eexists; repeat split; simpl; intros; eauto.
      unfold ok in Hok. replace (status r) with 200%Z in Hok. discriminate.
  - do 2 eexists; repeat split; simpl; intros; eauto; discriminate.
Qed.

Lemma earlier_server_agrees_on_status_witness :
  exists old new : Reply,
    fst (run (ServerJs.getShowData sampleConfig sampleJSON getShows)
           (answering unprocessable)) = Fulfilled old
    /\ fst (run (getShowData sampleConfig sampleJSON getShows)
              (answering unprocessable)) = Fulfilled new
    /\ statusCode old = statusCode new.
Proof.
  destruct (earlier_server_agrees_on_status sampleConfig sampleJSON getShows
              (answering unprocessable) (Fulfilled unprocessable)
              (fun _ => eq_refl)) as (old & new & Ho & Hn & Hs & _).
  exists old, new. exact (conj Ho (conj Hn Hs)).
Defined.
